(** * Intent cascade matcher of [app.py]

    A shallow embedding of the model state, [load_intents] and
    [find_intent] of [app.py], followed by the properties of the loader and
    of the four-stage cascade.

    Conventions of the embedding.
    - A decoded JSON document is a [value]; the only values that are not
      JSON are the compiled patterns that the loader stores under
      ["_regex"] and ["_regex_list"].
    - Text is [string]; lower-casing and trimming act on the ASCII range
      (other characters are kept as they are and are not white space).
    - Python exceptions are the constructors of [exn]; a call that may
      raise returns a [result].
    - The module globals are the fields of [state]; [load_intents] is a
      computation in a state-and-exception monad in which a raise keeps
      every assignment made before it.
    - The three libraries the program calls ([re], [rapidfuzz],
      [sklearn]) are the fields of the class [Libraries]. *)

From Stdlib Require Import String Ascii List Bool Arith ZArith QArith Lia Lqa.
From Stdlib Require Import Floats.SpecFloat.
Import ListNotations.

Set Implicit Arguments.

Local Open Scope string_scope.
Local Open Scope list_scope.

(** ** Exceptions and results *)

Inductive exn : Type :=
| OSError            (* the definition file cannot be opened *)
| JSONDecodeError    (* the definition file is not JSON *)
| TypeError
| AttributeError
| ValueError
| IndexError
| NotFittedError.

Inductive result (A : Type) : Type :=
| Ret (a : A)
| Raise (e : exn).

Arguments Ret {A} a.
Arguments Raise {A} e.

Definition rbind {A B : Type} (r : result A) (k : A -> result B) : result B :=
  match r with
  | Ret a => k a
  | Raise e => Raise e
  end.

Declare Scope result_scope.
Delimit Scope result_scope with result.
Notation "'let?' x ':=' r 'in' k" := (rbind r (fun x => k))
  (at level 10, x name, r at level 100, k at level 200) : result_scope.
Local Open Scope result_scope.

(** [map_result f l] evaluates [f] on the elements of [l] from left to
    right and stops at the first raise (a comprehension over a generator). *)
Fixpoint map_result {A B : Type} (f : A -> result B) (l : list A)
  : result (list B) :=
  match l with
  | [] => Ret []
  | x :: r =>
      let? y := f x in
      let? ys := map_result f r in
      Ret (y :: ys)
  end.

(** A [for] loop whose body may [return] a value from the enclosing
    function ([Ret (Some b)]), fall through to the next iteration
    ([Ret None]) or raise. *)
Fixpoint first_hit {A B : Type} (f : A -> result (option B)) (l : list A)
  : result (option B) :=
  match l with
  | [] => Ret None
  | x :: r =>
      match f x with
      | Ret None => first_hit f r
      | other => other
      end
  end.

(** Sequencing of two blocks of a function body: the second block runs
    only when the first neither returned nor raised. *)
Definition or_else {B : Type} (r : result (option B))
  (next : result (option B)) : result (option B) :=
  match r with
  | Ret None => next
  | other => other
  end.

(** ** Text *)

Definition lower_char (c : ascii) : ascii :=
  let n := nat_of_ascii c in
  if (65 <=? n)%nat && (n <=? 90)%nat then ascii_of_nat (n + 32) else c.

(** [str.lower()] *)
Fixpoint lower (s : string) : string :=
  match s with
  | EmptyString => EmptyString
  | String c r => String (lower_char c) (lower r)
  end.

(** The ASCII characters for which [str.isspace()] holds. *)
Definition is_space (c : ascii) : bool :=
  let n := nat_of_ascii c in
  ((9 <=? n)%nat && (n <=? 13)%nat) || ((28 <=? n)%nat && (n <=? 32)%nat).

Fixpoint lstrip (s : string) : string :=
  match s with
  | EmptyString => EmptyString
  | String c r => if is_space c then lstrip r else s
  end.

Fixpoint rstrip (s : string) : string :=
  match s with
  | EmptyString => EmptyString
  | String c r =>
      match rstrip r with
      | EmptyString => if is_space c then EmptyString else String c EmptyString
      | r' => String c r'
      end
  end.

(** [str.strip()] *)
Definition strip (s : string) : string := rstrip (lstrip s).


(** [needle in hay] on strings. *)
Fixpoint contains (needle hay : string) : bool :=
  prefix needle hay ||
  match hay with
  | EmptyString => false
  | String _ r => contains needle r
  end.

(** The characters of a string, as iteration over a [str] yields them. *)
Fixpoint chars (s : string) : list string :=
  match s with
  | EmptyString => []
  | String c r => String c EmptyString :: chars r
  end.

(** ** Values *)

#[warnings="-register-all"]
Inductive value : Type :=
| VNone
| VBool (b : bool)
| VInt (n : Z)
| VFloat (f : spec_float)
| VStr (s : string)
| VList (l : list value)
| VDict (d : list (string * value))   (* keys in insertion order *)
| VRegex (src : string).              (* re.compile(src, re.IGNORECASE) *)

Fixpoint assoc {A : Type} (k : string) (d : list (string * A)) : option A :=
  match d with
  | [] => None
  | (k', v) :: r => if String.eqb k k' then Some v else assoc k r
  end.

(** [d[k] = v]: an existing key keeps its position, a new one goes last. *)
Fixpoint dict_set {A : Type} (k : string) (v : A) (d : list (string * A))
  : list (string * A) :=
  match d with
  | [] => [(k, v)]
  | (k', v') :: r =>
      if String.eqb k k' then (k, v) :: r else (k', v') :: dict_set k v r
  end.


Definition is_list (v : value) : bool :=
  match v with VList _ => true | _ => false end.

Definition is_dict (v : value) : bool :=
  match v with VDict _ => true | _ => false end.

Definition is_none (v : value) : bool :=
  match v with VNone => true | _ => false end.

(** Truth value of an object in a condition. *)
Definition truthy (v : value) : bool :=
  match v with
  | VNone => false
  | VBool b => b
  | VInt n => negb (Z.eqb n 0)
  | VFloat f => match f with S754_zero _ => false | _ => true end
  | VStr s => negb (String.eqb s "")
  | VList l => match l with [] => false | _ => true end
  | VDict d => match d with [] => false | _ => true end
  | VRegex _ => true
  end.

(** Numbers: [bool] is a subtype of [int], and [int] and [float] compare
    by their exact values. *)
Definition num_of (v : value) : option (Z + spec_float) :=
  match v with
  | VBool b => Some (inl (if b then 1%Z else 0%Z))
  | VInt n => Some (inl n)
  | VFloat f => Some (inr f)
  | _ => None
  end.

Definition float_eq_int (f : spec_float) (n : Z) : bool :=
  match f with
  | S754_zero _ => Z.eqb n 0
  | S754_finite s m e =>
      let v := if s then Z.neg m else Z.pos m in
      if (0 <=? e)%Z then Z.eqb n (v * 2 ^ e) else Z.eqb (n * 2 ^ (- e)) v
  | _ => false
  end.

Definition num_eqb (x y : Z + spec_float) : bool :=
  match x, y with
  | inl a, inl b => Z.eqb a b
  | inl a, inr f => float_eq_int f a
  | inr f, inl b => float_eq_int f b
  | inr f, inr g => SFeqb f g
  end.

(** [a == b].  Floats compare as IEEE 754 numbers, also inside
    containers. *)
Fixpoint py_eq (a b : value) {struct a} : bool :=
  match a with
  | VNone => match b with VNone => true | _ => false end
  | VStr s => match b with VStr t => String.eqb s t | _ => false end
  | VRegex s => match b with VRegex t => String.eqb s t | _ => false end
  | VList l =>
      match b with
      | VList l' =>
          (fix all2 (l l' : list value) : bool :=
             match l, l' with
             | [], [] => true
             | x :: r, y :: r' => py_eq x y && all2 r r'
             | _, _ => false
             end) l l'
      | _ => false
      end
  | VDict d =>
      match b with
      | VDict d' =>
          Nat.eqb (List.length d) (List.length d') &&
          (fix every (d : list (string * value)) : bool :=
             match d with
             | [] => true
             | (k, v) :: r =>
                 match assoc k d' with
                 | Some w => py_eq v w
                 | None => false
                 end && every r
             end) d
      | _ => false
      end
  | VBool _ | VInt _ | VFloat _ =>
      match num_of a, num_of b with
      | Some x, Some y => num_eqb x y
      | _, _ => false
      end
  end.

(** [for x in v]: the elements of a list, the keys of a dict, the
    characters of a string; anything else is not iterable. *)
Definition py_iter (v : value) : result (list value) :=
  match v with
  | VList l => Ret l
  | VDict d => Ret (map (fun kv => VStr (fst kv)) d)
  | VStr s => Ret (map VStr (chars s))
  | _ => Raise TypeError
  end.

(** [v.get(k, default)]: only a dict has the method. *)
Definition py_get (v : value) (k : string) (default : value) : result value :=
  match v with
  | VDict d => Ret (match assoc k d with Some x => x | None => default end)
  | _ => Raise AttributeError
  end.

(** [v[k] = x] on a dict. *)
Definition py_set (v : value) (k : string) (x : value) : value :=
  match v with
  | VDict d => VDict (dict_set k x d)
  | _ => v
  end.

(** ** The libraries

    [re]: [re_valid p] says that [re.compile(p, re.IGNORECASE)] does not
    raise [re.error]; [re_search p t] that the compiled pattern finds a
    hit somewhere in [t].
    [rapidfuzz]: [token_set_ratio t c] is the score that
    [process.extractOne] with the scorer [fuzz.token_set_ratio] gives to
    the choice [c] for the query [t].
    [sklearn]: [fit_transform c] is [TfidfVectorizer(ngram_range=(1, 2))
    .fit_transform(c)], which raises [ValueError] on an empty vocabulary
    ([None] here) and otherwise gives the fitted vectorizer and the
    matrix; [similarities v m t] is
    [cosine_similarity(v.transform([t]), m)[0]], one entry per row of the
    matrix. *)
Class Libraries : Type := {
  re_valid : string -> bool;
  re_search : string -> string -> bool;
  token_set_ratio : string -> string -> Q;
  vec : Type;
  mat : Type;
  fit_transform : list string -> option (vec * mat);
  similarities : vec -> mat -> string -> list Q;
  similarities_rows :
    forall c v m t, fit_transform c = Some (v, m) ->
                    List.length (similarities v m t) = List.length c
}.

(** Index and value of the first maximum of a list of scores:
    [numpy.argmax], and the selection of [process.extractOne], which
    replaces its candidate only by a strictly better one. *)
Fixpoint argmax_from (best : Q) (best_idx : nat) (i : nat) (l : list Q)
  : nat * Q :=
  match l with
  | [] => (best_idx, best)
  | x :: r =>
      if Qle_bool x best then argmax_from best best_idx (S i) r
      else argmax_from x i (S i) r
  end.

Definition argmax (l : list Q) : option (nat * Q) :=
  match l with
  | [] => None
  | x :: r => Some (argmax_from x 0 1 r)
  end.

(** [best] at index [i] is a first maximum of [l]. *)
Definition first_max (l : list Q) (i : nat) (best : Q) : Prop :=
  nth_error l i = Some best /\
  forall j x, nth_error l j = Some x ->
              (x <= best)%Q /\ ((j < i)%nat -> (x < best)%Q).

Section Program.

Context {L : Libraries}.

(** ** Model state (the module globals) *)

Inductive vectorizer_state : Type :=
| Unfitted
| Fitted (v : vec).

Record state : Type := mkState {
  intents : value;                      (* as loaded from intents.json *)
  pattern_to_intent : list value;       (* index -> intent_name *)
  corpus : list string;                 (* list of pattern strings *)
  vectorizer : option vectorizer_state;
  X : option mat                        (* TF-IDF matrix over corpus *)
}.

Definition initial_state : state :=
  mkState (VList []) [] [] None None.

(** ** Computations on the globals

    A raise leaves the state as the assignments before it made it. *)
Definition M (A : Type) : Type := state -> state * result A.

Definition ret {A : Type} (a : A) : M A := fun st => (st, Ret a).

Definition bind {A B : Type} (c : M A) (k : A -> M B) : M B :=
  fun st =>
    match c st with
    | (st', Ret a) => k a st'
    | (st', Raise e) => (st', Raise e)
    end.

Definition lift {A : Type} (r : result A) : M A := fun st => (st, r).

Definition get {A : Type} (proj : state -> A) : M A :=
  fun st => (st, Ret (proj st)).

Definition modify (f : state -> state) : M unit :=
  fun st => (f st, Ret tt).

Definition set_intents (v : value) : state -> state :=
  fun st => mkState v (pattern_to_intent st) (corpus st) (vectorizer st) (X st).

Definition set_pattern_to_intent (p : list value) : state -> state :=
  fun st => mkState (intents st) p (corpus st) (vectorizer st) (X st).

Definition set_corpus (c : list string) : state -> state :=
  fun st => mkState (intents st) (pattern_to_intent st) c (vectorizer st) (X st).

Definition set_vectorizer (v : option vectorizer_state) : state -> state :=
  fun st => mkState (intents st) (pattern_to_intent st) (corpus st) v (X st).

Definition set_X (x : option mat) : state -> state :=
  fun st => mkState (intents st) (pattern_to_intent st) (corpus st) (vectorizer st) x.

Declare Scope M_scope.
Delimit Scope M_scope with M.
Notation "x <- c ;; k" := (bind c (fun x => k))
  (at level 61, c at next level, right associativity) : M_scope.
Notation "c ;; k" := (bind c (fun _ => k))
  (at level 61, right associativity) : M_scope.

(** [for x in l: body x] *)
Fixpoint for_each {A : Type} (l : list A) (body : A -> M unit) : M unit :=
  match l with
  | [] => ret tt
  | x :: r => (body x ;; for_each r body)%M
  end.

(** ** [_compile_regex]

    [re.compile] raises [re.error], which is caught, on a string that is
    not a regular expression; on an argument that is not a string it
    raises [TypeError], and with flags on a compiled pattern
    [ValueError], which are not caught. *)
Definition _compile_regex (pattern : value) : result value :=
  match pattern with
  | VStr s => Ret (if re_valid s then VRegex s else VNone)
  | VRegex _ => Raise ValueError
  | _ => Raise TypeError
  end.

(** ** [load_intents] *)

(** Lines 42-45: the list is the value under ["intents"] of an object
    that has the key, and the document itself otherwise. *)
Definition select_intents (raw : value) : value :=
  match raw with
  | VDict d =>
      match assoc "intents" d with
      | Some v => v
      | None => raw
      end
  | _ => raw
  end.

(** Lines 49-56: the body of the first loop, on one intent. *)
Definition compile_intent (it : value) : result value :=
  let? rgx := py_get it "regex" VNone in
  match rgx with
  | VStr _ =>
      let? r := _compile_regex rgx in
      Ret (py_set it "_regex" r)
  | VList ps =>
      let? rs := map_result _compile_regex ps in
      Ret (py_set it "_regex_list"
             (VList (filter (fun r => negb (is_none r)) rs)))
  | _ => Ret (py_set it "_regex" VNone)
  end.

(** Lines 48-56: the first loop.  The intents before the one whose body
    raises have been updated in place, the others are as loaded. *)
Fixpoint compile_loop (items : list value) : list value * result unit :=
  match items with
  | [] => ([], Ret tt)
  | it :: rest =>
      match compile_intent it with
      | Ret it' =>
          let (rest', r) := compile_loop rest in (it' :: rest', r)
      | Raise e => (it :: rest, Raise e)
      end
  end.

Definition compile_rules : M unit :=
  (its <- get intents ;;
   items <- lift (py_iter its) ;;
   let (items', r) := compile_loop items in
   (if is_list its then modify (set_intents (VList items')) else ret tt) ;;
   lift r)%M.

(** Lines 63-66: the body of the inner loop of the corpus indexer. *)
Definition index_pattern (it p : value) : M unit :=
  match p with
  | VStr s =>
      (c <- get corpus ;;
       modify (set_corpus (c ++ [lower s])) ;;
       name <- lift (py_get it "intent" VNone) ;;
       p2i <- get pattern_to_intent ;;
       modify (set_pattern_to_intent (p2i ++ [name])))%M
  | _ => ret tt
  end.

(** Lines 61-66. *)
Definition index_intent (it : value) : M unit :=
  (pats <- lift (py_get it "patterns" (VList [])) ;;
   ps <- lift (py_iter pats) ;;
   for_each ps (index_pattern it))%M.

Definition index_patterns : M unit :=
  (its <- get intents ;;
   items <- lift (py_iter its) ;;
   for_each items index_intent)%M.

(** Lines 69-73. *)
Definition train : M unit :=
  (modify (set_vectorizer (Some Unfitted)) ;;
   c <- get corpus ;;
   match c with
   | [] => modify (set_X None)
   | _ =>
       match fit_transform c with
       | Some (v, m) =>
           modify (set_vectorizer (Some (Fitted v))) ;;
           modify (set_X (Some m))
       | None => lift (Raise ValueError)
       end
   end)%M.


(** A document whose intent list cannot be iterated, or has an entry that
    is not an object. *)
Definition malformed (raw : value) : bool :=
  match py_iter (select_intents raw) with
  | Raise _ => true
  | Ret items => negb (forallb is_dict items)
  end.

(** [file] is the outcome of opening and decoding [intents.json]. *)
Definition load_intents (file : result value) : M unit :=
  (raw <- lift file ;;
   modify (set_intents (select_intents raw)) ;;
   compile_rules ;;
   modify (set_pattern_to_intent []) ;;
   modify (set_corpus []) ;;
   index_patterns ;;
   train)%M.

(** The route [/reload]: the exception of a failed load propagates to
    the caller. *)
Definition reload_route (file : result value) : M value :=
  (load_intents file ;;
   ret (VDict [("ok", VBool true)]))%M.

(** ** [find_intent] *)

(** Line 79: [(user_text or "").lower().strip()]. *)
Definition normalize (user_text : value) : result string :=
  match (if truthy user_text then user_text else VStr "") with
  | VStr s => Ret (strip (lower s))
  | _ => Raise AttributeError
  end.

(** Lines 85-87: the inner loop of stage 1 on one intent. *)
Definition literal_hit (text : string) (it : value) : result (option value) :=
  let? pats := py_get it "patterns" (VList []) in
  let? ps := py_iter pats in
  first_hit
    (fun p =>
       match p with
       | VStr s => Ret (if contains (lower s) text then Some it else None)
       | _ => Ret None
       end) ps.

(** Lines 84-87. *)
Definition stage1 (st : state) (text : string) : result (option value) :=
  let? items := py_iter (intents st) in
  first_hit (literal_hit text) items.

(** [cre.search(text)]: only a compiled pattern has the method. *)
Definition search (cre : value) (text : string) : result bool :=
  match cre with
  | VRegex src => Ret (re_search src text)
  | _ => Raise AttributeError
  end.

(** Lines 92-98: the body of the loop of stage 2 on one intent. *)
Definition rule_hit (text : string) (it : value) : result (option value) :=
  let? cre := py_get it "_regex" VNone in
  let? single := (if truthy cre then search cre text else Ret false) in
  if single then Ret (Some it)
  else
    let? lst := py_get it "_regex_list" (VList []) in
    let? cres := py_iter (if truthy lst then lst else VList []) in
    first_hit
      (fun cre2 =>
         let? hit := search cre2 text in
         Ret (if hit then Some it else None)) cres.

(** Lines 90-98. *)
Definition stage2 (st : state) (text : string) : result (option value) :=
  let? items := py_iter (intents st) in
  first_hit (rule_hit text) items.

(** The strings among the entries of a pattern list. *)
Definition strs (ps : list value) : list string :=
  flat_map (fun p => match p with VStr s => [s] | _ => [] end) ps.

(** Line 101: the string patterns of one intent, as loaded. *)
Definition patterns_of_intent (it : value) : result (list string) :=
  let? pats := py_get it "patterns" (VList []) in
  let? ps := py_iter pats in
  Ret (strs ps).

Definition all_patterns (st : state) : result (list string) :=
  let? items := py_iter (intents st) in
  let? pss := map_result patterns_of_intent items in
  Ret (concat pss).

(** [process.extractOne(text, choices, scorer=fuzz.token_set_ratio)]:
    the first choice of the best score, with that score and its index;
    [None] when there is no choice. *)
Definition extractOne (text : string) (choices : list string)
  : option (string * Q * nat) :=
  match argmax (map (token_set_ratio text) choices) with
  | Some (idx, score) => Some (nth idx choices "", score, idx)
  | None => None
  end.

(** Lines 109-111 and 121-123: the first intent of that name. *)
Definition resolve (st : state) (intent_name : value)
  : result (option value) :=
  let? items := py_iter (intents st) in
  first_hit
    (fun it =>
       let? name := py_get it "intent" VNone in
       Ret (if py_eq name intent_name then Some it else None)) items.

(** Lines 101-111. *)
Definition stage3 (st : state) (text : string) (fuzzy_threshold : Q)
  : result (option value) :=
  let? choices := all_patterns st in
  match choices with
  | [] => Ret None
  | _ =>
      match extractOne text choices with
      | Some (_, score, idx) =>
          if Qle_bool fuzzy_threshold score then
            match nth_error (pattern_to_intent st) idx with
            | Some intent_name => resolve st intent_name
            | None => Raise IndexError
            end
          else Ret None
      | None => Ret None
      end
  end.

(** Lines 114-123. *)
Definition stage4 (st : state) (text : string) (tfidf_threshold : Q)
  : result (option value) :=
  match X st, vectorizer st with
  | Some m, Some vz =>
      match vz with
      | Unfitted => Raise NotFittedError
      | Fitted v =>
          match argmax (similarities v m text) with
          | None => Raise ValueError
          | Some (best_idx, best_score) =>
              if Qle_bool tfidf_threshold best_score then
                match nth_error (pattern_to_intent st) best_idx with
                | Some intent_name => resolve st intent_name
                | None => Raise IndexError
                end
              else Ret None
          end
      end
  | _, _ => Ret None
  end.

Definition find_intent (st : state) (user_text : value)
  (fuzzy_threshold tfidf_threshold : Q) : result (option value) :=
  let? text := normalize user_text in
  if String.eqb text "" then Ret None
  else
    or_else (stage1 st text)
      (or_else (stage2 st text)
         (or_else (stage3 st text fuzzy_threshold)
            (stage4 st text tfidf_threshold))).

(** The default thresholds of [find_intent]. *)
Definition default_fuzzy_threshold : Q := 70.
Definition default_tfidf_threshold : Q := 35 # 100.

(** ** [chat] *)

Definition fallback_text : string :=
  "Sorry, I didn't get it. Please type an appropriate message.".

(** [jsonify({"response": r})] *)
Definition reply (r : value) : value := VDict [("response", r)].

(** Lines 129-134; [json] is what [request.get_json(force=True)]
    returned. *)
Definition chat (st : state) (json : value) : result value :=
  let data := if truthy json then json else VDict [] in
  let? message := py_get data "message" (VStr "") in
  let? found :=
    find_intent st message default_fuzzy_threshold default_tfidf_threshold in
  match found with
  | Some it =>
      if truthy it then
        let? r := py_get it "response" (VStr "") in
        Ret (reply r)
      else Ret (reply (VStr fallback_text))
  | None => Ret (reply (VStr fallback_text))
  end.

(** ** Reading a loaded index *)

(** The elements of [intents], when it can be iterated. *)
Definition items_of (st : state) : list value :=
  match py_iter (intents st) with
  | Ret items => items
  | Raise _ => []
  end.

(** The entries of [it["patterns"]]. *)
Definition patterns_of (it : value) : list value :=
  match py_get it "patterns" (VList []) with
  | Ret pats => match py_iter pats with Ret ps => ps | Raise _ => [] end
  | Raise _ => []
  end.

(** [it.get("intent")] *)
Definition name_of (it : value) : value :=
  match py_get it "intent" VNone with
  | Ret n => n
  | Raise _ => VNone
  end.

(** Some string entry of [it["patterns"]] occurs, lower-cased, in [text]. *)
Definition has_literal (text : string) (it : value) : bool :=
  existsb
    (fun p => match p with VStr s => contains (lower s) text | _ => false end)
    (patterns_of it).

(** The string entries of [it["patterns"]], in their order. *)
Definition str_patterns (it : value) : list string := strs (patterns_of it).

(** The rules of [it["regex"]] that are regular expressions, in the
    order in which stage 2 tries them. *)
Definition rule_sources (it : value) : list string :=
  match py_get it "regex" VNone with
  | Ret (VStr s) => if re_valid s then [s] else []
  | Ret (VList ps) => filter re_valid (strs ps)
  | _ => []
  end.

(** Some rule of [it] finds a hit in [text]. *)
Definition has_rule (text : string) (it : value) : bool :=
  existsb (fun s => re_search s text) (rule_sources it).

(** An entry of the document that does not itself carry the keys under
    which the load stores the compiled rules. *)
Definition no_reserved_keys (it : value) : bool :=
  match it with
  | VDict d =>
      match assoc "_regex" d, assoc "_regex_list" d with
      | None, None => true
      | _, _ => false
      end
  | _ => true
  end.

Definition plain_document (raw : value) : bool :=
  match py_iter (select_intents raw) with
  | Ret items => forallb no_reserved_keys items
  | Raise _ => true
  end.

(** An intent object whose ["patterns"], when present, can be iterated. *)
Definition well_formed (it : value) : Prop :=
  exists d ps,
    it = VDict d /\
    py_iter (match assoc "patterns" d with Some x => x | None => VList [] end)
    = Ret ps.

(** The state after the indexer has appended the patterns [ss] of an
    intent of name [name]. *)
Definition appended (st : state) (ss : list string) (names : list value)
  : state :=
  mkState (intents st) (pattern_to_intent st ++ names)
    (corpus st ++ map lower ss) (vectorizer st) (X st).

(** What a completed load establishes: the intents can be iterated and
    are well formed, the corpus and the owner names are the flattened
    string patterns, and the similarity model is the one fitted on the
    corpus (there is none for an empty corpus). *)
Definition consistent (st : state) : Prop :=
  py_iter (intents st) = Ret (items_of st) /\
  Forall well_formed (items_of st) /\
  corpus st = map lower (flat_map str_patterns (items_of st)) /\
  pattern_to_intent st =
    flat_map (fun it => map (fun _ => name_of it) (str_patterns it))
      (items_of st) /\
  match corpus st with
  | [] => X st = None
  | c =>
      exists v m,
        fit_transform c = Some (v, m) /\
        vectorizer st = Some (Fitted v) /\ X st = Some m
  end.

(** A state that a load has completed on. *)
Definition built (st : state) : Prop :=
  exists raw st0, load_intents (Ret raw) st0 = (st, Ret tt).

End Program.

(** ** A small instance of the libraries, to run the program on examples

    Patterns are literal words (one with an opening parenthesis counts as
    a syntax error), the fuzzy score is 100 when the text occurs in the
    phrase and 0 otherwise, a vocabulary needs one phrase of two
    characters or more, and the similarity of a text to a phrase is 1 when
    they are equal, 1/2 when they start with the same character and 0
    otherwise. *)
Module Demo.

Definition valid (p : string) : bool := negb (contains "(" p).

Definition hit (p t : string) : bool := contains (lower p) (lower t).

Definition ratio (text phrase : string) : Q :=
  if contains text phrase then 100 else 0.

Definition fit (c : list string) : option (list string * list string) :=
  if existsb (fun d => (2 <=? String.length d)%nat) c then Some (c, c)
  else None.

Definition similarity (t d : string) : Q :=
  if String.eqb d t then 1
  else
    match String.get 0 d, String.get 0 t with
    | Some a, Some b => if Ascii.eqb a b then 1 # 2 else 0
    | _, _ => 0
    end.

Definition sims (v m : list string) (t : string) : list Q :=
  map (similarity t) m.

Definition sims_rows (c v m : list string) (t : string)
  (H : fit c = Some (v, m)) : List.length (sims v m t) = List.length c.
Proof.
  unfold fit in H. unfold sims. rewrite length_map.
  destruct (existsb _ c); [ | discriminate H ].
  injection H as _ Hm. rewrite Hm. reflexivity.
Defined.

Definition libraries : Libraries :=
  {| re_valid := valid;
     re_search := hit;
     token_set_ratio := ratio;
     vec := list string;
     mat := list string;
     fit_transform := fit;
     similarities := sims;
     similarities_rows := sims_rows |}.

(** [{"intent": name, "patterns": [...]}] *)
Definition intent (name : string) (patterns : list string) : value :=
  VDict [("intent", VStr name); ("patterns", VList (map VStr patterns))].


(** The state after loading a document into the initial state. *)
Definition loaded (raw : value) : state (L := libraries) :=
  fst (load_intents (L := libraries) (Ret raw) initial_state).

Definition greetings : value :=
  VList [intent "greet" ["hi"]; intent "meet" ["hi there"]].


Definition travel : value :=
  VList [intent "flight" ["book a flight"; "Flight to Rome"];
         intent "hotel" ["find a hotel"; ""]].

(** A document with rules: one rule, and a list with a rule that is not
    a regular expression. *)
Definition orders : value :=
  VList [VDict [("intent", VStr "bye"); ("regex", VStr "bye")];
         VDict [("intent", VStr "order");
                ("patterns", VList [VStr "my order"]);
                ("regex", VList [VStr "order ("; VStr "track"])]].

(** A document without patterns. *)
Definition farewell : value :=
  VList [VDict [("intent", VStr "bye"); ("regex", VStr "bye");
                ("response", VStr "Goodbye!")]].

(** A document with a response. *)
Definition shop : value :=
  VList [VDict [("intent", VStr "hours");
                ("patterns", VList [VStr "opening hours"]);
                ("response", VStr "We open at nine.")]].

End Demo.

(** * Properties *)

Unset Implicit Arguments.

(** ** Text *)




(** ** Loops *)

Lemma first_hit_find {A : Type} (f : A -> result (option A)) (p : A -> bool)
  (l : list A) :
  Forall (fun x => f x = Ret (if p x then Some x else None)) l ->
  first_hit f l = Ret (find p l).
Proof.
  induction 1 as [ | x l Hx _ IH ]; simpl; [ reflexivity | ].
  rewrite Hx. destruct (p x); [ reflexivity | exact IH ].
Qed.


Lemma find_none_iff {A : Type} (p : A -> bool) (l : list A) :
  find p l = None <-> Forall (fun y => p y = false) l.
Proof.
  induction l as [ | y l IH ]; simpl.
  - split; [ constructor | reflexivity ].
  - destruct (p y) eqn:Hy.
    + split; [ discriminate | ]. intros H. inversion H; congruence.
    + rewrite IH. split; [ now constructor | now inversion 1 ].
Qed.


Section Facts.

Context {L : Libraries}.

(** ** The state monad *)

Lemma bind_ret_inv {A B : Type} (c : M A) (k : A -> M B) st st' b :
  bind c k st = (st', Ret b) ->
  exists a st1, c st = (st1, Ret a) /\ k a st1 = (st', Ret b).
Proof.
  unfold bind. destruct (c st) as [ st1 [ a | e ] ]; [ | discriminate ].
  intros H. now exists a, st1.
Qed.

(** Splits a completed sequence [H : bind c k st = (st', Ret b)] into its
    first step and the rest. *)
Ltac bind_inv H x s H1 :=
  apply bind_ret_inv in H; destruct H as (x & s & H1 & H).

Lemma state_eta (st : state) :
  mkState (intents st) (pattern_to_intent st) (corpus st) (vectorizer st)
    (X st) = st.
Proof. destruct st; reflexivity. Qed.

(** ** The corpus indexer *)

Lemma appended_nil st : appended st [] [] = st.
Proof.
  unfold appended. simpl. rewrite !app_nil_r. apply state_eta.
Qed.

Lemma appended_app st ss1 n1 ss2 n2 :
  appended (appended st ss1 n1) ss2 n2 = appended st (ss1 ++ ss2) (n1 ++ n2).
Proof.
  unfold appended. simpl. now rewrite map_app, !app_assoc.
Qed.

Lemma index_pattern_run d p st :
  index_pattern (VDict d) p st =
  (appended st (strs [p]) (map (fun _ => name_of (VDict d)) (strs [p])),
   Ret tt).
Proof.
  destruct p; simpl; try (now rewrite appended_nil).
  reflexivity.
Qed.

Lemma index_loop_run d ps st :
  for_each ps (index_pattern (VDict d)) st =
  (appended st (strs ps) (map (fun _ => name_of (VDict d)) (strs ps)),
   Ret tt).
Proof.
  revert st. induction ps as [ | p ps IH ]; intros st.
  - simpl. now rewrite appended_nil.
  - simpl for_each. unfold bind. rewrite index_pattern_run, IH, appended_app.
    unfold strs. simpl flat_map. rewrite !app_nil_r, map_app. reflexivity.
Qed.

Lemma index_intent_ok it st st' :
  index_intent it st = (st', Ret tt) ->
  well_formed it /\
  st' = appended st (str_patterns it)
          (map (fun _ => name_of it) (str_patterns it)).
Proof.
  unfold index_intent, bind, lift, str_patterns, patterns_of, well_formed.
  destruct it as [ | | | | | | d | ]; simpl; try discriminate.
  destruct (py_iter _) as [ ps | e ] eqn:Hps; [ | discriminate ].
  rewrite index_loop_run. intros [= <-]. split; [ | reflexivity ].
  now exists d, ps.
Qed.

Lemma index_items_ok items st st' :
  for_each items index_intent st = (st', Ret tt) ->
  Forall well_formed items /\
  st' = appended st (flat_map str_patterns items)
          (flat_map (fun it => map (fun _ => name_of it) (str_patterns it))
             items).
Proof.
  revert st. induction items as [ | it items IH ]; intros st; simpl.
  - intros [= <-]. split; [ constructor | now rewrite appended_nil ].
  - intros H. bind_inv H u st1 H1. destruct u. rename H into H2.
    apply index_intent_ok in H1. destruct H1 as (Hwf & ->).
    apply IH in H2. destruct H2 as (Hall & ->).
    split; [ now constructor | apply appended_app ].
Qed.

(** ** The rule compiler *)

Lemma assoc_dict_set_other {A : Type} (k k' : string) (v : A) d :
  k <> k' -> assoc k' (dict_set k v d) = assoc k' d.
Proof.
  intros Hk. induction d as [ | [k0 v0] d IH ]; simpl.
  - destruct (String.eqb_spec k' k); [ congruence | reflexivity ].
  - destruct (String.eqb_spec k k0) as [ -> | Hk0 ]; simpl.
    + destruct (String.eqb_spec k' k0); [ congruence | reflexivity ].
    + destruct (String.eqb_spec k' k0); [ reflexivity | exact IH ].
Qed.

(** The body of the first loop only adds or replaces ["_regex"] or
    ["_regex_list"]. *)
Lemma compile_intent_ok it it' :
  compile_intent it = Ret it' ->
  exists d d',
    it = VDict d /\ it' = VDict d' /\
    assoc "patterns" d' = assoc "patterns" d /\
    assoc "intent" d' = assoc "intent" d.
Proof.
  unfold compile_intent.
  destruct it as [ | | | | | | d | ]; simpl; try discriminate.
  assert (Hset : forall k v,
             k = "_regex" \/ k = "_regex_list" ->
             exists d0 d',
               VDict d = VDict d0 /\ VDict (dict_set k v d) = VDict d' /\
               assoc "patterns" d' = assoc "patterns" d0 /\
               assoc "intent" d' = assoc "intent" d0).
  { intros k v Hk. exists d, (dict_set k v d).
    repeat split; apply assoc_dict_set_other;
      destruct Hk as [ -> | -> ]; discriminate. }
  destruct (assoc "regex" d) as [ [ | | | | s | ps | | ] | ]; simpl;
    try (intros [= <-]; apply Hset; now left).
  destruct (map_result _compile_regex ps); simpl; [ | discriminate ].
  intros [= <-]. apply Hset. now right.
Qed.


Lemma compile_loop_ok items items' :
  compile_loop items = (items', Ret tt) ->
  Forall2 (fun it it' => compile_intent it = Ret it') items items'.
Proof.
  revert items'. induction items as [ | it items IH ]; intros items'; simpl.
  - intros [= <-]. constructor.
  - destruct (compile_intent it) as [ it' | e ] eqn:Hit; [ | discriminate ].
    destruct (compile_loop items) as [ rest' r ]. intros [= <- ->].
    constructor; [ assumption | now apply IH ].
Qed.

Lemma compile_rules_run st :
  compile_rules st =
  match py_iter (intents st) with
  | Raise e => (st, Raise e)
  | Ret items =>
      ((if is_list (intents st)
        then set_intents (VList (fst (compile_loop items))) st else st),
       snd (compile_loop items))
  end.
Proof.
  unfold compile_rules, bind, get, lift.
  destruct (py_iter (intents st)) as [ items | e ]; [ | reflexivity ].
  destruct (compile_loop items) as [ items' r ]. simpl.
  destruct (is_list (intents st)); simpl; now destruct r.
Qed.

(** Whatever the first loop does, it assigns nothing but [intents]. *)
Lemma compile_rules_frame st st' r :
  compile_rules st = (st', r) ->
  pattern_to_intent st' = pattern_to_intent st /\
  corpus st' = corpus st /\
  vectorizer st' = vectorizer st /\ X st' = X st.
Proof.
  rewrite compile_rules_run.
  destruct (py_iter (intents st)); [ | now intros [= <- _] ].
  destruct (is_list (intents st)); intros [= <- _]; now repeat split.
Qed.

Lemma compile_rules_ok st st' :
  compile_rules st = (st', Ret tt) ->
  exists items items',
    py_iter (intents st) = Ret items /\
    Forall2 (fun it it' => compile_intent it = Ret it') items items' /\
    py_iter (intents st') = Ret items'.
Proof.
  rewrite compile_rules_run.
  destruct (py_iter (intents st)) as [ items | e ] eqn:Hit; [ | discriminate ].
  destruct (compile_loop items) as [ items' r ] eqn:Hloop. simpl.
  intros H. assert (r = Ret tt) as -> by congruence.
  pose proof (compile_loop_ok _ _ Hloop) as Hall.
  exists items, items'. repeat split; [ assumption | ].
  destruct (intents st) as [ | | | | s | l | d | ] eqn:Hi; simpl in *;
    try discriminate; injection H as <-; try reflexivity.
  - (* a string: its characters are not objects *)
    simpl. rewrite Hi. simpl. injection Hit as <-.
    destruct s; simpl in *; [ now inversion Hall | discriminate ].
  - (* an object: its keys are not objects *)
    simpl. rewrite Hi. simpl. injection Hit as <-.
    destruct d; simpl in *; [ now inversion Hall | discriminate ].
Qed.

(** ** The similarity model *)

Lemma train_ok st st' :
  train st = (st', Ret tt) ->
  intents st' = intents st /\
  pattern_to_intent st' = pattern_to_intent st /\
  corpus st' = corpus st /\
  match corpus st with
  | [] => X st' = None
  | c =>
      exists v m,
        fit_transform c = Some (v, m) /\
        vectorizer st' = Some (Fitted v) /\ X st' = Some m
  end.
Proof.
  unfold train, bind, modify, get. simpl.
  destruct (corpus st) as [ | p c ] eqn:Hc.
  - intros [= <-]. simpl. rewrite Hc. now repeat split.
  - destruct (fit_transform (p :: c)) as [ [v m] | ] eqn:Hfit; simpl.
    + intros [= <-]. simpl. rewrite Hc. repeat split. now exists v, m.
    + discriminate.
Qed.

(** ** A completed load *)

Lemma items_of_iter st items :
  py_iter (intents st) = Ret items -> items_of st = items.
Proof. unfold items_of. now intros ->. Qed.

Theorem built_consistent st : built st -> consistent st.
Proof.
  intros (raw & st0 & Hload). unfold load_intents in Hload.
  bind_inv Hload raw' s1 H1. bind_inv Hload u2 s2 H2.
  bind_inv Hload u3 s3 H3. bind_inv Hload u4 s4 H4.
  bind_inv Hload u5 s5 H5. bind_inv Hload u6 s6 H6. rename Hload into H7.
  destruct u2, u3, u4, u5, u6.
  apply compile_rules_ok in H3. destruct H3 as (items0 & items & _ & _ & Hit).
  unfold modify in H4, H5. injection H4 as <-. injection H5 as <-.
  unfold index_patterns, bind, get, lift in H6. simpl in H6. rewrite Hit in H6.
  apply index_items_ok in H6. destruct H6 as (Hwf & ->).
  apply train_ok in H7. simpl in H7. destruct H7 as (Hi & Hp & Hc & Hm).
  assert (Hitems : items_of st = items).
  { apply items_of_iter. now rewrite Hi. }
  unfold consistent. rewrite Hitems, Hi, Hp, Hc.
  repeat split; assumption.
Qed.

(** ** The stages on a consistent index *)

Lemma literal_hit_wf text it :
  well_formed it ->
  literal_hit text it = Ret (if has_literal text it then Some it else None).
Proof.
  intros (d & ps & -> & Hps).
  unfold literal_hit, has_literal, patterns_of. simpl. rewrite Hps. simpl.
  clear Hps. induction ps as [ | p ps IH ]; simpl; [ reflexivity | ].
  destruct p; simpl; try exact IH.
  destruct (contains (lower s) text); [ reflexivity | exact IH ].
Qed.

Lemma stage1_consistent st text :
  consistent st ->
  stage1 st text = Ret (find (has_literal text) (items_of st)).
Proof.
  intros (Hit & Hwf & _). unfold stage1. rewrite Hit. simpl.
  apply first_hit_find. revert Hwf. apply Forall_impl.
  intros it. apply literal_hit_wf.
Qed.

Lemma patterns_of_intent_wf it :
  well_formed it -> patterns_of_intent it = Ret (str_patterns it).
Proof.
  intros (d & ps & -> & Hps).
  unfold patterns_of_intent, str_patterns, patterns_of. simpl.
  now rewrite Hps.
Qed.

Lemma patterns_of_items_wf items :
  Forall well_formed items ->
  map_result patterns_of_intent items = Ret (map str_patterns items).
Proof.
  induction 1 as [ | it items Hx _ IH ]; simpl map_result; [ reflexivity | ].
  rewrite (patterns_of_intent_wf _ Hx), IH. reflexivity.
Qed.

Lemma all_patterns_consistent st :
  consistent st ->
  all_patterns st = Ret (flat_map str_patterns (items_of st)).
Proof.
  intros (Hit & Hwf & _). unfold all_patterns. rewrite Hit. simpl.
  rewrite (patterns_of_items_wf _ Hwf). simpl. now rewrite flat_map_concat_map.
Qed.

Lemma resolve_consistent st name :
  consistent st ->
  resolve st name
  = Ret (find (fun it => py_eq (name_of it) name) (items_of st)).
Proof.
  intros (Hit & Hwf & _). unfold resolve. rewrite Hit. simpl.
  apply first_hit_find. revert Hwf. apply Forall_impl.
  intros it (d & ps & -> & _). reflexivity.
Qed.

(** The corpus is the lower-cased list that the fuzzy stage scores, and
    the owner names run parallel to both. *)
Lemma corpus_all_patterns st :
  consistent st ->
  exists choices,
    all_patterns st = Ret choices /\
    corpus st = map lower choices /\
    List.length (pattern_to_intent st) = List.length choices.
Proof.
  intros Hc. exists (flat_map str_patterns (items_of st)).
  split; [ now apply all_patterns_consistent | ].
  destruct Hc as (_ & _ & Hcorpus & Hp2i & _).
  split; [ assumption | ]. rewrite Hp2i. clear Hcorpus Hp2i.
  induction (items_of st) as [ | it items IH ]; simpl; [ reflexivity | ].
  now rewrite !length_app, length_map, IH.
Qed.

End Facts.

(** ** First maximum *)

Lemma argmax_from_first_max (l l0 : list Q) (best : Q) (bi i : nat) (b : Q) :
  first_max l0 bi best ->
  argmax_from best bi (List.length l0) l = (i, b) ->
  first_max (l0 ++ l) i b.
Proof.
  revert l0 best bi. induction l as [ | x r IH ]; intros l0 best bi Hinv; simpl.
  - intros [= <- <-]. now rewrite app_nil_r.
  - replace (l0 ++ x :: r) with ((l0 ++ [x]) ++ r)
      by now rewrite <- app_assoc.
    replace (S (List.length l0)) with (List.length (l0 ++ [x]))
      by (rewrite length_app; simpl; lia).
    destruct Hinv as (Hbest & Hmax).
    assert (Hbi : (bi < List.length l0)%nat).
    { apply nth_error_Some. congruence. }
    destruct (Qle_bool x best) eqn:Hle; apply IH.
    + apply Qle_bool_iff in Hle. split.
      * rewrite nth_error_app1; assumption.
      * intros j y Hj.
        destruct (Nat.lt_ge_cases j (List.length l0)) as [ Hlt | Hge ].
        -- rewrite nth_error_app1 in Hj by assumption. now apply Hmax.
        -- rewrite nth_error_app2 in Hj by assumption.
           destruct (j - List.length l0)%nat as [ | n ]; simpl in Hj.
           ++ injection Hj as <-. split; [ assumption | lia ].
           ++ destruct n; discriminate.
    + assert (Hlt : (best < x)%Q).
      { apply Qnot_le_lt. intros H. apply Qle_bool_iff in H. congruence. }
      split.
      * rewrite nth_error_app2 by lia. now rewrite Nat.sub_diag.
      * intros j y Hj.
        destruct (Nat.lt_ge_cases j (List.length l0)) as [ Hj0 | Hge ].
        -- rewrite nth_error_app1 in Hj by assumption.
           destruct (Hmax j y Hj) as (Hy & _).
           split; [ | intros _ ].
           ++ apply Qlt_le_weak. now apply Qle_lt_trans with best.
           ++ now apply Qle_lt_trans with best.
        -- rewrite nth_error_app2 in Hj by assumption.
           destruct (j - List.length l0)%nat as [ | n ] eqn:Hn; simpl in Hj.
           ++ injection Hj as <-. split; [ apply Qle_refl | lia ].
           ++ destruct n; discriminate.
Qed.

Lemma argmax_first_max (l : list Q) (i : nat) (best : Q) :
  argmax l = Some (i, best) -> first_max l i best.
Proof.
  destruct l as [ | x r ]; simpl; [ discriminate | ].
  intros [= H]. apply (argmax_from_first_max r [x] x 0%nat); [ | exact H ].
  split; [ reflexivity | ]. intros [ | [ | j ] ] y; simpl; try discriminate.
  intros [= <-]. split; [ apply Qle_refl | lia ].
Qed.

Lemma argmax_nonempty (l : list Q) :
  l <> [] -> exists i best, argmax l = Some (i, best).
Proof.
  destruct l as [ | x r ]; [ congruence | ]. intros _. simpl.
  destruct (argmax_from x 0 1 r) as [ i b ]. now exists i, b.
Qed.

Lemma first_max_bound (l : list Q) (i : nat) (best : Q) :
  first_max l i best -> (i < List.length l)%nat.
Proof. intros (H & _). apply nth_error_Some. congruence. Qed.

Section Claims.

Context {L : Libraries}.

(** ** Alignment of the corpus with the owner names *)

Lemma strs_in s ps : In s (strs ps) <-> In (VStr s) ps.
Proof.
  unfold strs. rewrite in_flat_map. split.
  - intros (p & Hp & Hs). destruct p; simpl in Hs; try contradiction.
    destruct Hs as [ -> | [] ]. exact Hp.
  - intros H. exists (VStr s). split; [ exact H | now left ].
Qed.



(** ** Blank input *)




(** ** The cascade *)

Lemma find_intent_cascade st user_text text ft tt :
  normalize user_text = Ret text -> text <> "" ->
  find_intent st user_text ft tt =
  or_else (stage1 st text)
    (or_else (stage2 st text)
       (or_else (stage3 st text ft) (stage4 st text tt))).
Proof.
  intros Hn Ht. unfold find_intent. rewrite Hn. simpl.
  destruct (String.eqb_spec text ""); [ contradiction | reflexivity ].
Qed.





(** ** Stage 1 on the text of a pattern *)



(** ** Stages 3 and 4 on a built index *)

Lemma stage3_run st text ft choices idx score owner :
  consistent st ->
  all_patterns st = Ret choices -> choices <> [] ->
  argmax (map (token_set_ratio text) choices) = Some (idx, score) ->
  nth_error (pattern_to_intent st) idx = Some owner ->
  stage3 st text ft =
  if Qle_bool ft score
  then Ret (find (fun it => py_eq (name_of it) owner) (items_of st))
  else Ret None.
Proof.
  intros Hc Hall Hne Harg Hown. unfold stage3, extractOne.
  rewrite Hall. simpl. destruct choices as [ | c choices ]; [ congruence | ].
  rewrite Harg. destruct (Qle_bool ft score); [ | reflexivity ].
  rewrite Hown. now apply resolve_consistent.
Qed.



Lemma stage4_run st text tt v m idx best owner :
  consistent st ->
  vectorizer st = Some (Fitted v) -> X st = Some m ->
  argmax (similarities v m text) = Some (idx, best) ->
  nth_error (pattern_to_intent st) idx = Some owner ->
  stage4 st text tt =
  if Qle_bool tt best
  then Ret (find (fun it => py_eq (name_of it) owner) (items_of st))
  else Ret None.
Proof.
  intros Hc Hv Hx Harg Hown. unfold stage4. rewrite Hx, Hv, Harg.
  destruct (Qle_bool tt best); [ | reflexivity ].
  rewrite Hown. now apply resolve_consistent.
Qed.


(** ** Rule compilation *)


Lemma compiled_kept ss :
  filter (fun r => negb (is_none r))
    (map (fun s => if re_valid s then VRegex s else VNone) ss)
  = map VRegex (filter re_valid ss).
Proof.
  induction ss as [ | s ss IH ]; simpl; [ reflexivity | ].
  destruct (re_valid s); simpl; now rewrite IH.
Qed.





(** ** A failed reload *)

Lemma compile_loop_not_objects items :
  forallb is_dict items = false ->
  exists e, snd (compile_loop items) = Raise e.
Proof.
  induction items as [ | it items IH ]; simpl; [ discriminate | ].
  intros H. destruct (compile_intent it) as [ it' | e ] eqn:Hit.
  - apply compile_intent_ok in Hit. destruct Hit as (d & d' & -> & _).
    simpl in H. destruct (IH H) as (e & He).
    destruct (compile_loop items) as [ rest' r ]. simpl in *. now exists e.
  - now exists e.
Qed.

(** C1, as the code has it.  A reload from a document whose intent list
    cannot be iterated or has an entry that is not an object raises to
    the caller of the reload.  The corpus, the pattern-to-intent mapping,
    the vectorizer and the matrix are then those of before the reload,
    and [intents] is the new document's list, with the compiled rules of
    the entries before the one that raised. *)
Theorem failed_reload_state raw st :
  malformed raw = true ->
  exists st' e,
    load_intents (Ret raw) st = (st', Raise e) /\
    reload_route (Ret raw) st = (st', Raise e) /\
    intents st' =
      match select_intents raw with
      | VList items => VList (fst (compile_loop items))
      | v => v
      end /\
    pattern_to_intent st' = pattern_to_intent st /\
    corpus st' = corpus st /\
    vectorizer st' = vectorizer st /\
    X st' = X st.
Proof.
  unfold malformed. intros H.
  assert (Hrun : exists st' e,
             compile_rules (set_intents (select_intents raw) st)
             = (st', Raise e) /\
             intents st' =
               match select_intents raw with
               | VList items => VList (fst (compile_loop items))
               | v => v
               end).
  { rewrite compile_rules_run. simpl intents.
    destruct (py_iter (select_intents raw)) as [ items | e ] eqn:Hit.
    - apply negb_true_iff in H.
      destruct (compile_loop_not_objects _ H) as (e & He). rewrite He.
      eexists; exists e. split; [ reflexivity | ].
      destruct (select_intents raw); simpl in *; try reflexivity.
      now injection Hit as ->.
    - eexists; exists e. split; [ reflexivity | ].
      destruct (select_intents raw); simpl in *; try reflexivity.
      discriminate. }
  destruct Hrun as (st' & e & Hrun & Hint).
  destruct (compile_rules_frame _ _ _ Hrun) as (Hp & Hc & Hv & Hx).
  exists st', e. unfold reload_route, load_intents, bind, lift, modify.
  rewrite Hrun. repeat split; assumption.
Qed.

End Claims.

(** * The program on examples *)

Lemma built_loaded raw :
  snd (load_intents (L := Demo.libraries) (Ret raw) initial_state) = Ret tt ->
  built (Demo.loaded raw).
Proof.
  intros H. exists raw, initial_state. unfold Demo.loaded.
  destruct (load_intents (Ret raw) initial_state) as [ st r ].
  simpl in *. now rewrite H.
Qed.

(** C3.  After loading [[{"intent": "greet", "patterns": ["Hello"]}]] the
    fuzzy stage scores the text against ["Hello"], the pattern as
    written, while the corpus of the similarity model holds ["hello"]. *)
Theorem fuzzy_choices_keep_case :
  all_patterns (Demo.loaded (VList [Demo.intent "greet" ["Hello"]]))
  = Ret ["Hello"] /\
  corpus (Demo.loaded (VList [Demo.intent "greet" ["Hello"]])) = ["hello"].
Proof. split; reflexivity. Qed.

(** C1 does not hold as stated: after a reload from the document [5] on
    top of a built index, the load has raised but [intents] is [5]. *)
Lemma failed_reload_replaces_intents :
  ~ (forall (L : Libraries) (raw : value) (st : state),
       built st -> malformed raw = true ->
       exists e, load_intents (Ret raw) st = (st, Raise e)).
Proof.
  intros H.
  destruct (H Demo.libraries (VInt 5) (Demo.loaded Demo.greetings))
    as (e & He).
  - now apply built_loaded.
  - reflexivity.
  - vm_compute in He. discriminate He.
Qed.

(** A reload from the document [{}], which is no list either, does not
    raise: it completes with an empty index. *)
Lemma empty_object_reload :
  load_intents (Ret (VDict [])) (Demo.loaded Demo.greetings)
  = (mkState (VDict []) [] [] (Some Unfitted) None, Ret tt).
Proof. reflexivity. Qed.

(** The index left by that reload answers no query. *)
Lemma query_after_failed_reload :
  find_intent
    (fst (load_intents (Ret (VInt 5)) (Demo.loaded Demo.greetings)))
    (VStr "hi") default_fuzzy_threshold default_tfidf_threshold
  = Raise TypeError.
Proof. reflexivity. Qed.


(** The load of such a document raises [TypeError]. *)
Lemma rule_list_with_number_load :
  snd (load_intents (L := Demo.libraries)
         (Ret (VList [VDict [("intent", VStr "greet");
                             ("regex", VList [VInt 1])]]))
         initial_state)
  = Raise TypeError.
Proof. reflexivity. Qed.


(** A pattern that starts with white space is not found in the trimmed
    text of itself. *)
Lemma exact_pattern_trimmed :
  stage1 (Demo.loaded (VList [Demo.intent "greet" [" hi"]])) "hi" = Ret None /\
  normalize (VStr " hi") = Ret "hi".
Proof. split; reflexivity. Qed.

(** ** The theorems on examples *)

Lemma failed_reload_state_witness :
  malformed (VInt 5) = true /\
  exists st' e,
    load_intents (Ret (VInt 5)) (Demo.loaded Demo.greetings)
    = (st', Raise e) /\
    intents st' = VInt 5 /\
    corpus st' = ["hi"; "hi there"].
Proof.
  split; [ reflexivity | ].
  destruct (failed_reload_state (VInt 5) (Demo.loaded Demo.greetings) eq_refl)
    as (st' & e & Hload & _ & Hint & _ & Hcorpus & _).
  exists st', e. split; [ exact Hload | ]. split; [ exact Hint | ].
  rewrite Hcorpus. reflexivity.
Defined.









(** * Further properties of the loader, the cascade and the chat route *)

Section Coverage.

Context {L : Libraries}.

(** ** The phases of a load *)

Ltac bind_inv H x s H1 :=
  apply bind_ret_inv in H; destruct H as (x & s & H1 & H).

Lemma index_intent_run it :
  exists ss names r,
    List.length names = List.length ss /\
    (r <> Ret tt -> ss = [] /\ names = []) /\
    forall st, index_intent it st = (appended st ss names, r).
Proof.
  destruct it as [ | | | | | | d | ];
    try (exists [], [], (Raise AttributeError);
         split; [ reflexivity | ]; split; [ now intros _ | ];
         intros st; now rewrite appended_nil).
  destruct (py_iter (match assoc "patterns" d with
                     | Some x => x
                     | None => VList []
                     end)) as [ ps | e ] eqn:Hps.
  - exists (strs ps), (map (fun _ => name_of (VDict d)) (strs ps)), (Ret tt).
    split; [ now rewrite length_map | ]. split; [ congruence | ].
    intros st. unfold index_intent, bind, lift. simpl. rewrite Hps.
    apply index_loop_run.
  - exists [], [], (Raise e).
    split; [ reflexivity | ]. split; [ now intros _ | ].
    intros st. unfold index_intent, bind, lift. simpl. rewrite Hps.
    now rewrite appended_nil.
Qed.

Lemma index_items_run items :
  exists ss names r,
    List.length names = List.length ss /\
    forall st, for_each items index_intent st = (appended st ss names, r).
Proof.
  induction items as [ | it items IH ].
  - exists [], [], (Ret tt). split; [ reflexivity | ].
    intros st. simpl. now rewrite appended_nil.
  - destruct (index_intent_run it) as (ss1 & n1 & r1 & Hlen1 & Hfail & Hrun1).
    destruct IH as (ss2 & n2 & r2 & Hlen2 & Hrun2).
    destruct r1 as [ [] | e ].
    + exists (ss1 ++ ss2), (n1 ++ n2), r2.
      split; [ rewrite !length_app; lia | ].
      intros st. simpl. unfold bind. rewrite Hrun1, Hrun2.
      now rewrite appended_app.
    + exists ss1, n1, (Raise e). split; [ assumption | ].
      intros st. simpl. unfold bind. now rewrite Hrun1.
Qed.

Lemma train_run st :
  train st =
  match corpus st with
  | [] => (set_X None (set_vectorizer (Some Unfitted) st), Ret tt)
  | c =>
      match fit_transform c with
      | Some (v, m) =>
          (mkState (intents st) (pattern_to_intent st) (corpus st)
             (Some (Fitted v)) (Some m), Ret tt)
      | None => (set_vectorizer (Some Unfitted) st, Raise ValueError)
      end
  end.
Proof.
  unfold train, bind, modify, get. simpl.
  destruct (corpus st) as [ | p c ] eqn:Hc; [ reflexivity | ].
  destruct (fit_transform (p :: c)) as [ [v m] | ]; simpl; [ | reflexivity ].
  unfold set_X, set_vectorizer. simpl. now rewrite Hc.
Qed.

(** A load of a decoded document ends in one of four ways, and what it
    leaves depends on the previous state only through the fields it has
    not yet assigned. *)
Lemma load_shape raw :
  (exists I e,
     forall st, load_intents (Ret raw) st = (set_intents I st, Raise e)) \/
  (exists I ss names e,
     List.length names = List.length ss /\
     forall st,
       load_intents (Ret raw) st =
       (mkState I names (map lower ss) (vectorizer st) (X st), Raise e)) \/
  (exists I ss names,
     List.length names = List.length ss /\
     forall st,
       load_intents (Ret raw) st =
       (mkState I names (map lower ss) (Some Unfitted) (X st),
        Raise ValueError)) \/
  (exists I ss names vz x,
     List.length names = List.length ss /\
     forall st,
       load_intents (Ret raw) st =
       (mkState I names (map lower ss) (Some vz) x, Ret tt)).
Proof.
  set (sel := select_intents raw).
  assert (Hstep : forall st,
             load_intents (Ret raw) st =
             match compile_rules (set_intents sel st) with
             | (st2, Ret _) =>
                 match index_patterns
                         (set_corpus [] (set_pattern_to_intent [] st2)) with
                 | (st4, Ret _) => train st4
                 | (st4, Raise e) => (st4, Raise e)
                 end
             | (st2, Raise e) => (st2, Raise e)
             end).
  { intros st. unfold load_intents, bind, lift, modify. fold sel.
    destruct (compile_rules (set_intents sel st)) as [ st2 [ [] | e ] ];
      reflexivity. }
  destruct (py_iter sel) as [ items | e ] eqn:Hit.
  2:{ left. exists sel, e. intros st. rewrite Hstep, compile_rules_run.
      simpl. now rewrite Hit. }
  set (I := if is_list sel then VList (fst (compile_loop items)) else sel).
  assert (Hcomp : forall st,
             compile_rules (set_intents sel st)
             = (set_intents I st, snd (compile_loop items))).
  { intros st. rewrite compile_rules_run. simpl. rewrite Hit. unfold I.
    now destruct (is_list sel). }
  destruct (snd (compile_loop items)) as [ [] | e ] eqn:Hloop.
  2:{ left. exists I, e. intros st. now rewrite Hstep, Hcomp. }
  assert (HI : exists items', py_iter I = Ret items').
  { unfold I. destruct (is_list sel); [ now eexists | now exists items ]. }
  destruct HI as (items' & HI).
  destruct (index_items_run items') as (ss & names & r & Hlen & Hrun).
  assert (Hidx : forall st,
             index_patterns
               (set_corpus [] (set_pattern_to_intent [] (set_intents I st)))
             = (mkState I names (map lower ss) (vectorizer st) (X st), r)).
  { intros st. unfold index_patterns, bind, get, lift. simpl. rewrite HI.
    now rewrite Hrun. }
  right. destruct r as [ [] | e ].
  2:{ left. exists I, ss, names, e. split; [ assumption | ].
      intros st. now rewrite Hstep, Hcomp, Hidx. }
  right. destruct (map lower ss) as [ | p c ] eqn:Hc.
  - right. exists I, ss, names, Unfitted, None. split; [ assumption | ].
    intros st. rewrite Hstep, Hcomp, Hidx, train_run. simpl.
    now rewrite Hc.
  - destruct (fit_transform (p :: c)) as [ [v m] | ] eqn:Hfit.
    + right. exists I, ss, names, (Fitted v), (Some m).
      split; [ assumption | ].
      intros st. rewrite Hstep, Hcomp, Hidx, train_run. simpl.
      now rewrite Hc, Hfit.
    + left. exists I, ss, names. split; [ assumption | ].
      intros st. rewrite Hstep, Hcomp, Hidx, train_run. simpl.
      now rewrite Hc, Hfit.
Qed.

(** X1.  Whether a load completes or raises, and with which exception,
    depends on the file only; a load that completes assigns all five
    globals, so that its final state does not depend on the state it
    started from, and loading the same file again changes nothing. *)
Theorem load_overwrites_state file s1 s2 :
  snd (load_intents file s1) = snd (load_intents file s2) /\
  (forall st',
     load_intents file s1 = (st', Ret tt) ->
     load_intents file s2 = (st', Ret tt) /\
     load_intents file st' = (st', Ret tt)).
Proof.
  destruct file as [ raw | e ]; [ | split; [ reflexivity | discriminate ] ].
  destruct (load_shape raw)
    as [ (I & e & H)
       | [ (I & ss & names & e & _ & H)
         | [ (I & ss & names & _ & H)
           | (I & ss & names & vz & x & _ & H) ] ] ];
    (split; [ now rewrite (H s1), (H s2) | ]);
    intros st' Hload; rewrite (H s1) in Hload;
    try discriminate Hload.
  injection Hload as <-. now rewrite (H s2), H.
Qed.

(** ** The loaded intents and the document *)

Lemma assoc_dict_set_same {A : Type} (k : string) (v : A) d :
  assoc k (dict_set k v d) = Some v.
Proof.
  induction d as [ | [k0 v0] d IH ]; simpl.
  - now rewrite String.eqb_refl.
  - destruct (String.eqb_spec k k0) as [ -> | Hk ]; simpl.
    + now rewrite String.eqb_refl.
    + destruct (String.eqb_spec k k0); [ contradiction | exact IH ].
Qed.

Lemma dict_set_not_empty {A : Type} (k : string) (v : A) d :
  dict_set k v d <> [].
Proof.
  destruct d as [ | [k0 v0] d ]; simpl; [ discriminate | ].
  destruct (String.eqb k k0); discriminate.
Qed.

Lemma compile_intent_shape it it' :
  compile_intent it = Ret it' ->
  exists d k v,
    it = VDict d /\ it' = VDict (dict_set k v d) /\
    (k = "_regex" \/ k = "_regex_list").
Proof.
  unfold compile_intent.
  destruct it as [ | | | | | | d | ]; simpl; try discriminate.
  destruct (assoc "regex" d) as [ [ | | | | s | ps | | ] | ]; simpl;
    try (intros [= <-]; do 3 eexists; split; [ reflexivity | ];
         split; [ reflexivity | now left ]).
  destruct (map_result _compile_regex ps); simpl; [ | discriminate ].
  intros [= <-]. do 3 eexists. split; [ reflexivity | ].
  split; [ reflexivity | now right ].
Qed.

Lemma load_ok_items raw st0 st :
  load_intents (Ret raw) st0 = (st, Ret tt) ->
  exists items0,
    py_iter (select_intents raw) = Ret items0 /\
    Forall2 (fun it it' => compile_intent it = Ret it') items0 (items_of st).
Proof.
  intros Hload. unfold load_intents in Hload.
  bind_inv Hload raw' s1 H1. bind_inv Hload u2 s2 H2.
  bind_inv Hload u3 s3 H3. bind_inv Hload u4 s4 H4.
  bind_inv Hload u5 s5 H5. bind_inv Hload u6 s6 H6. rename Hload into H7.
  destruct u2, u3, u4, u5, u6.
  injection H1 as <- <-. unfold modify in H2. injection H2 as <-.
  apply compile_rules_ok in H3.
  destruct H3 as (items0 & items & H0 & Hall & Hit).
  unfold modify in H4, H5. injection H4 as <-. injection H5 as <-.
  unfold index_patterns, bind, get, lift in H6. simpl in H6. rewrite Hit in H6.
  apply index_items_ok in H6. destruct H6 as (_ & ->).
  apply train_ok in H7. simpl in H7. destruct H7 as (Hi & _).
  exists items0. split; [ exact H0 | ].
  unfold items_of. now rewrite Hi, Hit.
Qed.



(** ** Stage 2 on a loaded document *)

Lemma strs_strings ss : strs (map VStr ss) = ss.
Proof.
  induction ss as [ | s ss IH ]; simpl; [ reflexivity | ]. now rewrite IH.
Qed.

Lemma compiled_strings ps rs :
  map_result _compile_regex ps = Ret rs ->
  exists ss,
    ps = map VStr ss /\
    rs = map (fun s => if re_valid s then VRegex s else VNone) ss.
Proof.
  revert rs. induction ps as [ | p ps IH ]; intros rs; simpl.
  - intros [= <-]. now exists [].
  - destruct p; simpl; try discriminate.
    destruct (map_result _compile_regex ps) as [ rs' | e ]; simpl;
      [ | discriminate ].
    intros [= <-]. destruct (IH _ eq_refl) as (ss & -> & ->).
    now exists (s :: ss).
Qed.

Lemma rule_list_hit text (it : value) fs :
  first_hit
    (fun cre2 =>
       let? hit := search cre2 text in
       Ret (if hit then Some it else None)) (map VRegex fs)
  = Ret (if existsb (fun s => re_search s text) fs then Some it else None).
Proof.
  induction fs as [ | s fs IH ]; simpl; [ reflexivity | ].
  destruct (re_search s text); [ reflexivity | exact IH ].
Qed.

Lemma rule_hit_loaded text it it' :
  compile_intent it = Ret it' -> no_reserved_keys it = true ->
  rule_hit text it' = Ret (if has_rule text it' then Some it' else None).
Proof.
  unfold compile_intent, no_reserved_keys.
  destruct it as [ | | | | | | d | ]; simpl; try discriminate.
  destruct (assoc "_regex" d) eqn:H1; [ discriminate | ].
  destruct (assoc "_regex_list" d) eqn:H2; [ discriminate | ].
  intros Hc _.
  assert (Hnone : forall d',
             assoc "_regex" d' = Some VNone ->
             assoc "_regex_list" d' = None ->
             (forall s, assoc "regex" d' <> Some (VStr s)) ->
             (forall ps, assoc "regex" d' <> Some (VList ps)) ->
             rule_hit text (VDict d')
             = Ret (if has_rule text (VDict d') then Some (VDict d')
                    else None)).
  { intros d' Hr Hl Hs Hp. unfold rule_hit, has_rule, rule_sources. simpl.
    rewrite Hr, Hl. simpl.
    destruct (assoc "regex" d') as [ [ | | | | s | ps | | ] | ];
      try reflexivity; [ now elim (Hs s) | now elim (Hp ps) ]. }
  assert (Hreg : forall v, assoc "regex" (dict_set "_regex" v d)
                           = assoc "regex" d)
    by (intros v; now apply assoc_dict_set_other).
  assert (Hlst : forall v, assoc "_regex_list" (dict_set "_regex" v d) = None)
    by (intros v; rewrite assoc_dict_set_other; [ exact H2 | discriminate ]).
  assert (Hplain : (forall s, assoc "regex" d <> Some (VStr s)) ->
                   (forall ps, assoc "regex" d <> Some (VList ps)) ->
                   rule_hit text (VDict (dict_set "_regex" VNone d))
                   = Ret (if has_rule text (VDict (dict_set "_regex" VNone d))
                          then Some (VDict (dict_set "_regex" VNone d))
                          else None)).
  { intros Hs Hp. apply Hnone; try (intros; rewrite Hreg; auto).
    - apply assoc_dict_set_same.
    - apply Hlst. }
  destruct (assoc "regex" d) as [ [ | | | | s | ps | | ] | ] eqn:Hrgx;
    simpl in Hc;
    try (injection Hc as <-; apply Hplain; intros; discriminate).
  - (* a single rule *)
    injection Hc as <-.
    unfold rule_hit, has_rule, rule_sources. simpl.
    rewrite assoc_dict_set_same, Hlst, Hreg, ?Hrgx. simpl.
    destruct (re_valid s); simpl; [ | reflexivity ].
    destruct (re_search s text); reflexivity.
  - (* a list of rules *)
    destruct (map_result _compile_regex ps) as [ rs | e ] eqn:Hrs;
      simpl in Hc; [ | discriminate ].
    injection Hc as <-.
    destruct (compiled_strings _ _ Hrs) as (ss & -> & ->).
    rewrite compiled_kept.
    unfold rule_hit, has_rule, rule_sources. simpl.
    rewrite assoc_dict_set_same.
    rewrite !assoc_dict_set_other by discriminate.
    rewrite H1, Hrgx, strs_strings. simpl.
    destruct (filter re_valid ss) as [ | f fs ] eqn:Hf.
    + reflexivity.
    + exact (rule_list_hit text _ (f :: fs)).
Qed.

Lemma stage2_plain raw st0 st text :
  load_intents (Ret raw) st0 = (st, Ret tt) -> plain_document raw = true ->
  stage2 st text = Ret (find (has_rule text) (items_of st)).
Proof.
  intros Hload Hplain.
  destruct (load_ok_items _ _ _ Hload) as (items0 & H0 & Hall).
  assert (Hb : consistent st) by (apply built_consistent; now exists raw, st0).
  unfold plain_document in Hplain. rewrite H0 in Hplain.
  unfold stage2. destruct Hb as (-> & _). simpl.
  apply first_hit_find. rewrite forallb_forall in Hplain.
  clear H0. induction Hall as [ | it it' items0 items H _ IH ];
    constructor.
  - apply (rule_hit_loaded _ _ _ H). apply Hplain. now left.
  - apply IH. intros x Hx. apply Hplain. now right.
Qed.

(** X6.  After a load that completes on a document none of whose
    intents carries the keys ["_regex"] or ["_regex_list"] itself,
    stage 2 does not raise and returns the first intent in store order
    one of whose rules that are regular expressions finds a hit in the
    text (a rule that is not a regular expression never matches); when
    no pattern of any intent occurs in the text, that intent is the
    answer of the cascade for every value of the thresholds. *)
Theorem stage2_first_rule raw st0 st user_text text :
  load_intents (Ret raw) st0 = (st, Ret tt) -> plain_document raw = true ->
  normalize user_text = Ret text -> text <> "" ->
  stage2 st text = Ret (find (has_rule text) (items_of st)) /\
  (Forall (fun it => has_literal text it = false) (items_of st) ->
   forall it,
     find (has_rule text) (items_of st) = Some it ->
     forall ft tt, find_intent st user_text ft tt = Ret (Some it)).
Proof.
  intros Hload Hplain Hn Ht.
  assert (Hb : consistent st) by (apply built_consistent; now exists raw, st0).
  pose proof (stage2_plain _ _ _ text Hload Hplain) as H2.
  split; [ exact H2 | ].
  intros Hlit it Hfind ft tt.
  rewrite (find_intent_cascade _ _ _ _ _ Hn Ht).
  rewrite (stage1_consistent _ _ Hb).
  apply find_none_iff in Hlit. rewrite Hlit. simpl.
  now rewrite H2, Hfind.
Qed.

(** ** An index without patterns *)

Lemma no_patterns_no_literal text items :
  flat_map str_patterns items = [] ->
  Forall (fun it => has_literal text it = false) items.
Proof.
  intros Hnil. apply Forall_forall. intros it Hin.
  destruct (has_literal text it) eqn:Hlit; [ | reflexivity ].
  unfold has_literal in Hlit. apply existsb_exists in Hlit.
  destruct Hlit as (p & Hp & Hc). destruct p; try discriminate.
  assert (Hs : In s (flat_map str_patterns items)).
  { apply in_flat_map. exists it. split; [ exact Hin | ].
    unfold str_patterns. now apply strs_in. }
  rewrite Hnil in Hs. contradiction.
Qed.

(** X7.  On a built index whose corpus is empty (no intent has a string
    pattern) there is no similarity matrix, stages 1, 3 and 4 answer
    nothing, and the cascade is exactly what stage 2 gives. *)
Theorem empty_corpus_only_rules st user_text text ft tt :
  built st -> corpus st = [] ->
  normalize user_text = Ret text -> text <> "" ->
  X st = None /\
  stage1 st text = Ret None /\
  stage3 st text ft = Ret None /\
  stage4 st text tt = Ret None /\
  find_intent st user_text ft tt = stage2 st text.
Proof.
  intros Hb Hcorpus Hn Ht. apply built_consistent in Hb.
  pose proof Hb as (_ & _ & Hc & _ & Hx). rewrite Hcorpus in Hx.
  rewrite Hcorpus in Hc. symmetry in Hc. apply map_eq_nil in Hc.
  assert (H1 : stage1 st text = Ret None).
  { rewrite (stage1_consistent _ _ Hb).
    now rewrite (proj2 (find_none_iff _ _) (no_patterns_no_literal _ _ Hc)). }
  assert (H3 : stage3 st text ft = Ret None).
  { unfold stage3. now rewrite (all_patterns_consistent _ Hb), Hc. }
  assert (H4 : stage4 st text tt = Ret None).
  { unfold stage4. now rewrite Hx. }
  repeat split; try assumption.
  rewrite (find_intent_cascade _ _ _ _ _ Hn Ht), H1, H3, H4. simpl.
  now destruct (stage2 st text) as [ [ it | ] | e ].
Qed.

(** ** What the cascade returns *)

Lemma first_hit_member {A : Type} (f : A -> result (option A)) l y :
  (forall x z, f x = Ret (Some z) -> z = x) ->
  first_hit f l = Ret (Some y) -> In y l.
Proof.
  intros Hf. induction l as [ | x l IH ]; simpl; [ discriminate | ].
  destruct (f x) as [ [ z | ] | e ] eqn:Hx.
  - intros [= <-]. left. symmetry. now apply Hf.
  - intros H. right. now apply IH.
  - discriminate.
Qed.

Lemma first_hit_const {A B : Type} (g : A -> result (option B)) l (b z : B) :
  (forall p z, g p = Ret (Some z) -> z = b) ->
  first_hit g l = Ret (Some z) -> z = b.
Proof.
  intros Hg. induction l as [ | p l IH ]; simpl; [ discriminate | ].
  destruct (g p) as [ [ z' | ] | e ] eqn:Hp.
  - intros [= <-]. now apply (Hg p).
  - exact IH.
  - discriminate.
Qed.

Lemma literal_hit_self text it z :
  literal_hit text it = Ret (Some z) -> z = it.
Proof.
  unfold literal_hit.
  destruct (py_get it "patterns" (VList [])) as [ pats | e ]; simpl;
    [ | discriminate ].
  destruct (py_iter pats) as [ ps | e ]; simpl; [ | discriminate ].
  apply first_hit_const. intros p z'.
  destruct p; try discriminate.
  destruct (contains (lower s) text); [ | discriminate ].
  now intros [= <-].
Qed.

Lemma rule_hit_self text it z :
  rule_hit text it = Ret (Some z) -> z = it.
Proof.
  unfold rule_hit.
  destruct (py_get it "_regex" VNone) as [ cre | e ]; simpl;
    [ | discriminate ].
  destruct (if truthy cre then search cre text else Ret false)
    as [ [ | ] | e ]; simpl; try discriminate.
  - now intros [= <-].
  - destruct (py_get it "_regex_list" (VList [])) as [ lst | e ]; simpl;
      [ | discriminate ].
    destruct (py_iter (if truthy lst then lst else VList []))
      as [ cres | e ]; simpl; [ | discriminate ].
    apply first_hit_const. intros cre2 z'.
    destruct (search cre2 text) as [ [ | ] | e ]; simpl; try discriminate.
    now intros [= <-].
Qed.

Lemma resolve_member st name z :
  resolve st name = Ret (Some z) -> In z (items_of st).
Proof.
  unfold resolve, items_of.
  destruct (py_iter (intents st)) as [ items | e ]; simpl; [ | discriminate ].
  apply first_hit_member. intros it z'.
  destruct (py_get it "intent" VNone) as [ n | e ]; simpl; [ | discriminate ].
  destruct (py_eq n name); [ | discriminate ]. now intros [= <-].
Qed.

Lemma returned_intent_in_store st user_text ft tt it :
  find_intent st user_text ft tt = Ret (Some it) -> In it (items_of st).
Proof.
  unfold find_intent.
  destruct (normalize user_text) as [ text | e ]; simpl; [ | discriminate ].
  destruct (String.eqb text ""); [ discriminate | ].
  assert (H1 : stage1 st text = Ret (Some it) -> In it (items_of st)).
  { unfold stage1, items_of.
    destruct (py_iter (intents st)) as [ items | e ]; simpl;
      [ | discriminate ].
    apply first_hit_member. intros x z. apply literal_hit_self. }
  assert (H2 : stage2 st text = Ret (Some it) -> In it (items_of st)).
  { unfold stage2, items_of.
    destruct (py_iter (intents st)) as [ items | e ]; simpl;
      [ | discriminate ].
    apply first_hit_member. intros x z. apply rule_hit_self. }
  assert (H3 : stage3 st text ft = Ret (Some it) -> In it (items_of st)).
  { unfold stage3.
    destruct (all_patterns st) as [ [ | c choices ] | e ]; simpl;
      try discriminate.
    destruct (extractOne text (c :: choices)) as [ [ [ b score ] idx ] | ];
      [ | discriminate ].
    destruct (Qle_bool ft score); [ | discriminate ].
    destruct (nth_error (pattern_to_intent st) idx); [ | discriminate ].
    apply resolve_member. }
  assert (H4 : stage4 st text tt = Ret (Some it) -> In it (items_of st)).
  { unfold stage4.
    destruct (X st) as [ m | ]; [ | discriminate ].
    destruct (vectorizer st) as [ [ | v ] | ]; try discriminate.
    destruct (argmax (similarities v m text)) as [ [ idx best ] | ];
      [ | discriminate ].
    destruct (Qle_bool tt best); [ | discriminate ].
    destruct (nth_error (pattern_to_intent st) idx); [ | discriminate ].
    apply resolve_member. }
  destruct (stage1 st text) as [ [ i1 | ] | e1 ]; simpl;
    [ exact H1 | | discriminate ].
  destruct (stage2 st text) as [ [ i2 | ] | e2 ]; simpl;
    [ exact H2 | | discriminate ].
  destruct (stage3 st text ft) as [ [ i3 | ] | e3 ]; simpl;
    [ exact H3 | exact H4 | discriminate ].
Qed.

(** ** Queries that do not raise *)

Lemma stage3_total st text ft :
  consistent st -> exists r, stage3 st text ft = Ret r.
Proof.
  intros Hb.
  destruct (corpus_all_patterns _ Hb) as (choices & Hall & _ & Hlen).
  destruct choices as [ | c choices ].
  - exists None. unfold stage3. now rewrite Hall.
  - destruct (argmax_nonempty (map (token_set_ratio text) (c :: choices)))
      as (idx & score & Harg); [ discriminate | ].
    pose proof (first_max_bound _ _ _ (argmax_first_max _ _ _ Harg)) as Hidx.
    rewrite length_map in Hidx.
    destruct (nth_error (pattern_to_intent st) idx) as [ owner | ] eqn:Hown;
      [ | apply nth_error_None in Hown; lia ].
    assert (Hne : c :: choices <> []) by discriminate.
    rewrite (stage3_run _ text ft _ _ _ _ Hb Hall Hne Harg Hown).
    destruct (Qle_bool ft score); now eexists.
Qed.

Lemma stage4_total st text tt :
  consistent st -> exists r, stage4 st text tt = Ret r.
Proof.
  intros Hb.
  destruct (corpus_all_patterns _ Hb) as (choices & _ & Hc & Hlen).
  pose proof Hb as (_ & _ & _ & _ & Hmodel).
  destruct (corpus st) as [ | c0 c ] eqn:Hcs.
  - exists None. unfold stage4. now rewrite Hmodel.
  - destruct Hmodel as (v & m & Hfit & Hv & Hx).
    pose proof (similarities_rows _ text Hfit) as Hrows.
    destruct (argmax_nonempty (similarities v m text)) as (idx & best & Harg).
    { intros E. rewrite E in Hrows. discriminate. }
    pose proof (first_max_bound _ _ _ (argmax_first_max _ _ _ Harg)) as Hidx.
    assert (Hp : (idx < List.length (pattern_to_intent st))%nat).
    { rewrite Hlen. rewrite Hc, Hrows in *. now rewrite length_map in Hidx. }
    destruct (nth_error (pattern_to_intent st) idx) as [ owner | ] eqn:Hown;
      [ | apply nth_error_None in Hown; lia ].
    rewrite (stage4_run _ text tt _ _ _ _ _ Hb Hv Hx Harg Hown).
    destruct (Qle_bool tt best); now eexists.
Qed.

(** X9.  After a load that completes on a document none of whose
    intents carries the keys ["_regex"] or ["_regex_list"] itself, a
    query whose input is a string, or is absent or otherwise false, never
    raises, whatever the thresholds. *)
Theorem find_intent_no_raise raw st0 st user_text text :
  load_intents (Ret raw) st0 = (st, Ret tt) -> plain_document raw = true ->
  normalize user_text = Ret text ->
  forall fuzzy_threshold tfidf_threshold,
  exists r,
    find_intent st user_text fuzzy_threshold tfidf_threshold = Ret r.
Proof.
  intros Hload Hplain Hn ft tt.
  destruct (String.eqb_spec text "") as [ -> | Ht ].
  { exists None. unfold find_intent. now rewrite Hn. }
  assert (Hb : consistent st) by (apply built_consistent; now exists raw, st0).
  pose proof (stage2_plain _ _ _ text Hload Hplain) as H2.
  destruct (stage3_total st text ft Hb) as (r3 & H3).
  destruct (stage4_total st text tt Hb) as (r4 & H4).
  rewrite (find_intent_cascade _ _ _ _ _ Hn Ht).
  rewrite (stage1_consistent _ _ Hb), H2, H3, H4.
  destruct (find (has_literal text) (items_of st)); simpl; [ now eexists | ].
  destruct (find (has_rule text) (items_of st)); simpl; [ now eexists | ].
  destruct r3; simpl; now eexists.
Qed.

(** ** The chat route *)

Lemma loaded_items_objects st :
  built st ->
  Forall (fun it => exists d, it = VDict d /\ d <> []) (items_of st).
Proof.
  intros (raw & st0 & Hload).
  destruct (load_ok_items _ _ _ Hload) as (items0 & _ & Hall).
  induction Hall as [ | it it' items0 items H _ IH ]; constructor;
    [ | exact IH ].
  apply compile_intent_shape in H. destruct H as (d & k & v & _ & -> & _).
  exists (dict_set k v d). split; [ reflexivity | apply dict_set_not_empty ].
Qed.

(** X13.  On a built index, when the cascade finds an intent for the
    message of a request, the reply is the value under ["response"] of
    that intent, or the empty string when it has none; it is never the
    fallback text, and reading the response does not raise. *)
Theorem chat_reply_of_match st json message it :
  built st ->
  py_get (if truthy json then json else VDict []) "message" (VStr "")
  = Ret message ->
  find_intent st message default_fuzzy_threshold default_tfidf_threshold
  = Ret (Some it) ->
  exists r,
    py_get it "response" (VStr "") = Ret r /\
    chat st json = Ret (reply r).
Proof.
  intros Hb Hmsg Hfind. unfold chat. rewrite Hmsg. simpl. rewrite Hfind.
  simpl. apply returned_intent_in_store in Hfind.
  pose proof (loaded_items_objects _ Hb) as Hall.
  rewrite Forall_forall in Hall. destruct (Hall _ Hfind) as (d & -> & Hd).
  destruct d as [ | kv d ]; [ congruence | ]. simpl.
  eexists. split; reflexivity.
Qed.

End Coverage.

(** ** These properties on examples *)

Lemma load_overwrites_state_witness :
  load_intents (Ret Demo.greetings) initial_state
  = (Demo.loaded Demo.greetings, Ret tt) /\
  load_intents (Ret Demo.greetings) (Demo.loaded Demo.travel)
  = (Demo.loaded Demo.greetings, Ret tt) /\
  load_intents (Ret Demo.greetings) (Demo.loaded Demo.greetings)
  = (Demo.loaded Demo.greetings, Ret tt).
Proof.
  assert (H : load_intents (Ret Demo.greetings) initial_state
              = (Demo.loaded Demo.greetings, Ret tt)) by (vm_compute; reflexivity).
  split; [ exact H | ].
  destruct (load_overwrites_state (Ret Demo.greetings) initial_state
              (Demo.loaded Demo.travel)) as (_ & Hsame).
  exact (Hsame _ H).
Defined.


Lemma stage2_first_rule_witness :
  load_intents (Ret Demo.orders) initial_state
  = (Demo.loaded Demo.orders, Ret tt) /\
  plain_document Demo.orders = true /\
  normalize (VStr "Please TRACK it") = Ret "please track it" /\
  exists it,
    In it (items_of (Demo.loaded Demo.orders)) /\
    py_get it "intent" VNone = Ret (VStr "order") /\
    forall ft tt,
      find_intent (Demo.loaded Demo.orders) (VStr "Please TRACK it") ft tt
      = Ret (Some it).
Proof.
  assert (H : load_intents (Ret Demo.orders) initial_state
              = (Demo.loaded Demo.orders, Ret tt)) by (vm_compute; reflexivity).
  assert (Hn : normalize (VStr "Please TRACK it") = Ret "please track it")
    by (vm_compute; reflexivity).
  assert (Ht : "please track it" <> "") by discriminate.
  split; [ exact H | ]. split; [ reflexivity | ]. split; [ exact Hn | ].
  destruct (stage2_first_rule _ _ _ _ _ H eq_refl Hn Ht) as (_ & Hwin).
  assert (Hlit : Forall (fun it => has_literal "please track it" it = false)
                   (items_of (Demo.loaded Demo.orders)))
    by (repeat constructor).
  destruct (find (has_rule "please track it")
              (items_of (Demo.loaded Demo.orders))) as [ it | ] eqn:Hfind;
    [ | discriminate Hfind ].
  exists it. split; [ | split; [ | exact (Hwin Hlit it eq_refl) ] ].
  - vm_compute in Hfind. injection Hfind as <-. right. left. reflexivity.
  - vm_compute in Hfind. injection Hfind as <-. reflexivity.
Defined.

Lemma empty_corpus_only_rules_witness :
  built (Demo.loaded Demo.farewell) /\
  corpus (Demo.loaded Demo.farewell) = [] /\
  normalize (VStr "Bye now") = Ret "bye now" /\
  X (Demo.loaded Demo.farewell) = None /\
  find_intent (Demo.loaded Demo.farewell) (VStr "Bye now")
    default_fuzzy_threshold default_tfidf_threshold
  = stage2 (Demo.loaded Demo.farewell) "bye now".
Proof.
  assert (Hb : built (Demo.loaded Demo.farewell))
    by (apply built_loaded; vm_compute; reflexivity).
  assert (Hc : corpus (Demo.loaded Demo.farewell) = [])
    by (vm_compute; reflexivity).
  assert (Hn : normalize (VStr "Bye now") = Ret "bye now")
    by (vm_compute; reflexivity).
  assert (Ht : "bye now" <> "") by discriminate.
  split; [ exact Hb | ]. split; [ exact Hc | ]. split; [ exact Hn | ].
  destruct (empty_corpus_only_rules _ _ _ default_fuzzy_threshold
              default_tfidf_threshold Hb Hc Hn Ht)
    as (Hx & _ & _ & _ & Hfind).
  split; [ exact Hx | exact Hfind ].
Defined.

Lemma find_intent_no_raise_witness :
  load_intents (Ret Demo.orders) initial_state
  = (Demo.loaded Demo.orders, Ret tt) /\
  plain_document Demo.orders = true /\
  normalize (VStr "Where is it?") = Ret "where is it?" /\
  exists r,
    find_intent (Demo.loaded Demo.orders) (VStr "Where is it?")
      default_fuzzy_threshold default_tfidf_threshold
    = Ret r.
Proof.
  assert (H : load_intents (Ret Demo.orders) initial_state
              = (Demo.loaded Demo.orders, Ret tt))
    by (vm_compute; reflexivity).
  assert (Hp : plain_document Demo.orders = true)
    by (vm_compute; reflexivity).
  assert (Hn : normalize (VStr "Where is it?") = Ret "where is it?")
    by (vm_compute; reflexivity).
  split; [ exact H | ]. split; [ exact Hp | ]. split; [ exact Hn | ].
  exact (find_intent_no_raise _ _ _ _ _ H Hp Hn default_fuzzy_threshold
           default_tfidf_threshold).
Defined.

Lemma chat_reply_of_match_witness :
  built (Demo.loaded Demo.shop) /\
  chat (Demo.loaded Demo.shop)
    (VDict [("message", VStr "What are your opening hours?")])
  = Ret (reply (VStr "We open at nine.")).
Proof.
  assert (Hb : built (Demo.loaded Demo.shop))
    by (apply built_loaded; vm_compute; reflexivity).
  split; [ exact Hb | ].
  destruct (chat_reply_of_match (Demo.loaded Demo.shop)
              (VDict [("message", VStr "What are your opening hours?")])
              (VStr "What are your opening hours?")
              (VDict [("intent", VStr "hours");
                      ("patterns", VList [VStr "opening hours"]);
                      ("response", VStr "We open at nine.");
                      ("_regex", VNone)])
              Hb)
    as (r & Hr & Hchat).
  - reflexivity.
  - vm_compute. reflexivity.
  - vm_compute in Hr. injection Hr as <-. exact Hchat.
Defined.

